(** * no-done-callback: the rule's decision tree and its promise-wrapping fix

    A shallow embedding of [src/rules/no-done-callback.ts].  The rule visits
    every call expression, locates the callback argument of a hook, a test or
    a tagged-template [.each] call, and reports a callback parameter in the
    completion-callback slot; for a synchronous callback whose parameter is a
    plain identifier the report carries one suggestion whose [fix] computes
    three text edits.

    What the file models, and where it comes from:
    - syntax-tree nodes, tokens and text ranges, as far as the rule reads them;
    - the token queries of the host's [SourceCode] and the edit constructors of
      its [fixer]: the first and last token of a node through the host's index
      map, the token before and after a node by their documented contract;
    - [findCallbackArg], the [CallExpression] visitor and the [fix] closure,
      translated from the source line by line;
    - [getNodeName] and [parseJestFnCall] of [./utils], whose code is not part
      of the rule's file, as parameters of a section. *)

From Stdlib Require Import Bool Arith ZArith Lia List String Ascii.
Import ListNotations.
Open Scope string_scope.
Open Scope list_scope.
Open Scope nat_scope.

Set Implicit Arguments.
Set Warnings "-register-all".

(** ** Ranges *)

(** A half-open span [start, end) of offsets into the source text. *)
Definition Range : Type := (nat * nat)%type.

(** Everything a token query or an edit constructor accepts ("nodeOrToken")
    has a range. *)
Class HasRange (A : Type) : Type := range : A -> Range.

Definition Range_eqb (r s : Range) : bool :=
  (fst r =? fst s) && (snd r =? snd s).


(** ** Syntax-tree nodes *)

Module AST_NODE_TYPES.
Inductive t : Set :=
| Identifier
| FunctionExpression
| ArrowFunctionExpression
| BlockStatement
| TaggedTemplateExpression
| CallExpression
| MemberExpression
| ObjectPattern
| ArrayPattern
| AssignmentPattern
| RestElement
| Literal
| TemplateLiteral.

Definition eqb (a b : t) : bool :=
  match a, b with
  | Identifier, Identifier
  | FunctionExpression, FunctionExpression
  | ArrowFunctionExpression, ArrowFunctionExpression
  | BlockStatement, BlockStatement
  | TaggedTemplateExpression, TaggedTemplateExpression
  | CallExpression, CallExpression
  | MemberExpression, MemberExpression
  | ObjectPattern, ObjectPattern
  | ArrayPattern, ArrayPattern
  | AssignmentPattern, AssignmentPattern
  | RestElement, RestElement
  | Literal, Literal
  | TemplateLiteral, TemplateLiteral => true
  | _, _ => false
  end.

End AST_NODE_TYPES.

Module TSESTree.
(** The node shapes the rule consults.  A function literal carries its
    [async] flag, its parameters and its body; an identifier its name; the
    other shapes are read only through their type tag and their range. *)
Inductive Node : Type :=
| Identifier (name : string) (loc : Range)
| FunctionExpression (async : bool) (params : list Node) (body : Node) (loc : Range)
| ArrowFunctionExpression (async : bool) (params : list Node) (body : Node) (loc : Range)
| BlockStatement (loc : Range)
| TaggedTemplateExpression (loc : Range)
| Call (loc : Range)
| MemberExpression (loc : Range)
| ObjectPattern (loc : Range)
| ArrayPattern (loc : Range)
| AssignmentPattern (loc : Range)
| RestElement (loc : Range)
| Literal (loc : Range)
| TemplateLiteral (loc : Range).

Definition type (n : Node) : AST_NODE_TYPES.t :=
  match n with
  | Identifier _ _ => AST_NODE_TYPES.Identifier
  | FunctionExpression _ _ _ _ => AST_NODE_TYPES.FunctionExpression
  | ArrowFunctionExpression _ _ _ _ => AST_NODE_TYPES.ArrowFunctionExpression
  | BlockStatement _ => AST_NODE_TYPES.BlockStatement
  | TaggedTemplateExpression _ => AST_NODE_TYPES.TaggedTemplateExpression
  | Call _ => AST_NODE_TYPES.CallExpression
  | MemberExpression _ => AST_NODE_TYPES.MemberExpression
  | ObjectPattern _ => AST_NODE_TYPES.ObjectPattern
  | ArrayPattern _ => AST_NODE_TYPES.ArrayPattern
  | AssignmentPattern _ => AST_NODE_TYPES.AssignmentPattern
  | RestElement _ => AST_NODE_TYPES.RestElement
  | Literal _ => AST_NODE_TYPES.Literal
  | TemplateLiteral _ => AST_NODE_TYPES.TemplateLiteral
  end.

Definition loc_of (n : Node) : Range :=
  match n with
  | Identifier _ l
  | FunctionExpression _ _ _ l
  | ArrowFunctionExpression _ _ _ l
  | BlockStatement l
  | TaggedTemplateExpression l
  | Call l
  | MemberExpression l
  | ObjectPattern l
  | ArrayPattern l
  | AssignmentPattern l
  | RestElement l
  | Literal l
  | TemplateLiteral l => l
  end.

(** Field reads on a function literal.  On another shape the field is
    absent: [params] is then empty and [body] is [None]. *)
Definition params (n : Node) : list Node :=
  match n with
  | FunctionExpression _ ps _ _ | ArrowFunctionExpression _ ps _ _ => ps
  | _ => []
  end.

Definition body (n : Node) : option Node :=
  match n with
  | FunctionExpression _ _ b _ | ArrowFunctionExpression _ _ b _ => Some b
  | _ => None
  end.

Definition async (n : Node) : bool :=
  match n with
  | FunctionExpression a _ _ _ | ArrowFunctionExpression a _ _ _ => a
  | _ => false
  end.

(** The call expression handed to the visitor. *)
Record CallExpression : Type := {
  callee : Node;
  arguments : list Node;
  call_loc : Range
}.
End TSESTree.

Import TSESTree.

#[export] Instance Node_HasRange : HasRange Node := loc_of.

(** ** Tokens and the token queries of the source code object *)

Record Token : Type := {
  value : string;
  token_loc : Range
}.

#[export] Instance Token_HasRange : HasRange Token := token_loc.

(** The source text and its tokens (comments left out), in source order. *)
Record SourceCode : Type := {
  text : string;
  tokens : list Token
}.

(** The last element of [l] that satisfies [p]. *)
Definition find_last {A : Type} (p : A -> bool) (l : list A) : option A :=
  find p (rev l).

(** The host's index map, for a source without comments.  It sends the
    location of the first and of the last character of every token to the
    index of that token; where two tokens claim a location the later one
    holds it.  Indices and locations are
    integers: a lookup one place before location 0, and the index before the
    first token, are negative. *)
Fixpoint indexMapFrom (index : Z) (l : list Token) (loc : Z) : option Z :=
  match l with
  | [] => None
  | t :: rest =>
      match indexMapFrom (index + 1) rest loc with
      | Some later => Some later
      | None =>
          if ((Z.of_nat (fst (range t)) =? loc) ||
              (Z.of_nat (snd (range t)) - 1 =? loc))%Z
          then Some index
          else None
      end
  end.

Definition indexMap (l : list Token) (loc : Z) : option Z :=
  indexMapFrom 0 l loc.

(** [tokens[index]], nothing outside the list. *)
Definition tokenAt (l : list Token) (index : Z) : option Token :=
  if (index <? 0)%Z then None else nth_error l (Z.to_nat index).

(** The index a forward walk from [startLoc] begins at: the token mapped at
    [startLoc]; else the token after the one mapped at [startLoc - 1]; else
    the first index of the list. *)
Definition getFirstIndex (l : list Token) (startLoc : Z) : Z :=
  match indexMap l startLoc with
  | Some index => index
  | None =>
      match indexMap l (startLoc - 1) with
      | Some index =>
          match tokenAt l index with
          | Some token =>
              if (startLoc <=? Z.of_nat (fst (range token)))%Z then index else (index + 1)%Z
          | None => (index + 1)%Z
          end
      | None => 0%Z
      end
  end.

(** The index a backward walk from [endLoc] begins at: the token before the
    one mapped at [endLoc]; else the token mapped at [endLoc - 1]; else the
    last index of the list. *)
Definition getLastIndex (l : list Token) (endLoc : Z) : Z :=
  match indexMap l endLoc with
  | Some index => (index - 1)%Z
  | None =>
      match indexMap l (endLoc - 1) with
      | Some index =>
          match tokenAt l index with
          | Some token =>
              if (endLoc <? Z.of_nat (snd (range token)))%Z then (index - 1)%Z else index
          | None => index
          end
      | None => (Z.of_nat (List.length l) - 1)%Z
      end
  end.

(** First token of the node: the token a forward walk between the node's
    start and end stands on first, if the walk is not empty. *)
Definition getFirstToken (sourceCode : SourceCode) (node : Node) : option Token :=
  let index := getFirstIndex (tokens sourceCode) (Z.of_nat (fst (range node))) in
  let indexEnd := getLastIndex (tokens sourceCode) (Z.of_nat (snd (range node))) in
  if (index <=? indexEnd)%Z then tokenAt (tokens sourceCode) index else None.

(** Last token of the node: the token a backward walk between the node's
    end and start stands on first, if the walk is not empty. *)
Definition getLastToken (sourceCode : SourceCode) (node : Node) : option Token :=
  let index := getLastIndex (tokens sourceCode) (Z.of_nat (snd (range node))) in
  let indexEnd := getFirstIndex (tokens sourceCode) (Z.of_nat (fst (range node))) in
  if (indexEnd <=? index)%Z then tokenAt (tokens sourceCode) index else None.

(** The last token that ends at or before the start of [nodeOrToken]. *)
Definition getTokenBefore {A : Type} `{HasRange A}
    (sourceCode : SourceCode) (nodeOrToken : A) : option Token :=
  find_last (fun t => snd (range t) <=? fst (range nodeOrToken)) (tokens sourceCode).

(** The first token that starts at or after the end of [nodeOrToken]. *)
Definition getTokenAfter {A : Type} `{HasRange A}
    (sourceCode : SourceCode) (nodeOrToken : A) : option Token :=
  find (fun t => snd (range nodeOrToken) <=? fst (range t)) (tokens sourceCode).

(** ** Text edits, as the fixer builds them *)

Record Fix : Type := {
  fix_range : Range;
  fix_text : string
}.

Module fixer.
Definition replaceText {A : Type} `{HasRange A} (nodeOrToken : A) (txt : string) : Fix :=
  {| fix_range := range nodeOrToken; fix_text := txt |}.

Definition removeRange (r : Range) : Fix :=
  {| fix_range := r; fix_text := "" |}.

Definition insertTextBefore {A : Type} `{HasRange A} (nodeOrToken : A) (txt : string) : Fix :=
  {| fix_range := (fst (range nodeOrToken), fst (range nodeOrToken)); fix_text := txt |}.

Definition insertTextAfter {A : Type} `{HasRange A} (nodeOrToken : A) (txt : string) : Fix :=
  {| fix_range := (snd (range nodeOrToken), snd (range nodeOrToken)); fix_text := txt |}.
End fixer.


(** ** Strings and results *)

(** [s.endsWith(suffix)]. *)
Definition endsWith (s suffix : string) : bool :=
  (String.length suffix <=? String.length s) &&
  String.eqb (substring (String.length s - String.length suffix) (String.length suffix) s) suffix.

(** [Number(b)] on a boolean. *)
Definition Number (b : bool) : nat := if b then 1 else 0.

(** A computation that returns a value or throws an error with a message. *)
Inductive Outcome (A : Type) : Type :=
| Returned (a : A)
| Thrown (message : string).

Arguments Returned {A} a.
Arguments Thrown {A} message.

(** ** The rule context and the report descriptors *)

Record RuleContext : Type := {
  getSourceCode : SourceCode;
  getFilename : string
}.

Module Suggest.
(** One entry of a report's [suggest] array.  [run_fix] is what calling the
    entry's [fix] closure yields. *)
Record t : Type := {
  messageId : string;
  data : list (string * string);
  run_fix : Outcome (list Fix)
}.
End Suggest.

Module Report.
(** The descriptor handed to [context.report]. *)
Record t : Type := {
  node : Node;
  messageId : string;
  suggest : list Suggest.t
}.
End Report.

(** ** Helpers of [./utils] *)

Inductive JestFnType : Set := hook | test | describe | expect | jest | unknown.

Definition JestFnType_eqb (a b : JestFnType) : bool :=
  match a, b with
  | hook, hook | test, test | describe, describe
  | expect, expect | jest, jest | unknown, unknown => true
  | _, _ => false
  end.

Record ParsedJestFnCall : Type := {
  fn_name : string;
  fn_type : JestFnType
}.

(** Modelled from the spec: [isFunction] of [./utils], whose code is not in
    the rule's file: "a predicate identifying function-literal nodes (arrow or
    ordinary)". *)
Definition isFunction (n : Node) : bool :=
  AST_NODE_TYPES.eqb (type n) AST_NODE_TYPES.FunctionExpression ||
  AST_NODE_TYPES.eqb (type n) AST_NODE_TYPES.ArrowFunctionExpression.

(** ** The fix of the suggestion *)

Definition unexpected_null (context : RuleContext) : string :=
  ("Unexpected null when attempting to fix " ++ getFilename context ++
   " - please file a github issue at https://github.com/jest-community/eslint-plugin-jest")%string.

(** The token after the last parameter, stepping over one comma. *)
Definition skipComma (sourceCode : SourceCode) (tokenAfterLastParam : option Token)
    : option Token :=
  match tokenAfterLastParam with
  | Some t => if String.eqb (value t) "," then getTokenAfter sourceCode t else Some t
  | None => None
  end.

(** The [fix] closure of the suggestion, over the [callback] function literal
    and the name of its callback parameter ([argument.name]).  Reading the
    body or the first parameter of a node that has none is a type error of
    the host language; the visitor never calls the closure on such a node. *)
Definition fix_ (context : RuleContext) (callback : Node) (argument_name : string)
    : Outcome (list Fix) :=
  match body callback, params callback with
  | Some body, firstParam :: _ =>
      let params := params callback in
      let sourceCode := getSourceCode context in
      let firstBodyToken := getFirstToken sourceCode body in
      let lastBodyToken := getLastToken sourceCode body in
      let lastParam := last params firstParam in
      let tokenBeforeFirstParam := getTokenBefore sourceCode firstParam in
      let tokenAfterLastParam := skipComma sourceCode (getTokenAfter sourceCode lastParam) in
      match firstBodyToken, lastBodyToken, tokenBeforeFirstParam, tokenAfterLastParam with
      | Some firstBodyToken, Some lastBodyToken,
        Some tokenBeforeFirstParam, Some tokenAfterLastParam =>
          let argumentFix :=
            if String.eqb (value tokenBeforeFirstParam) "(" &&
               String.eqb (value tokenAfterLastParam) ")"
            then fixer.removeRange
                   (snd (range tokenBeforeFirstParam), fst (range tokenAfterLastParam))
            else fixer.replaceText firstParam "()" in
          let newCallback := argument_name in
          let beforeReplacement := ("new Promise(" ++ newCallback ++ " => ")%string in
          let afterReplacement := ")" in
          if AST_NODE_TYPES.eqb (type body) AST_NODE_TYPES.BlockStatement
          then
            let keyword := "return" in
            let beforeReplacement := (keyword ++ " " ++ beforeReplacement ++ "{")%string in
            let afterReplacement := (afterReplacement ++ "}")%string in
            Returned [ argumentFix;
                       fixer.insertTextAfter firstBodyToken beforeReplacement;
                       fixer.insertTextAfter lastBodyToken afterReplacement ]
          else
            Returned [ argumentFix;
                       fixer.insertTextBefore firstBodyToken beforeReplacement;
                       fixer.insertTextAfter lastBodyToken afterReplacement ]
      | _, _, _, _ => Thrown (unexpected_null context)
      end
  | _, _ => Thrown "TypeError"
  end.

(** ** The rule *)

Section Rule.

(** [getNodeName] and [parseJestFnCall] of [./utils]: the dotted name of a
    callee, and the classification of a call as a jest function call. *)
Variable getNodeName : Node -> option string.
Variable parseJestFnCall : CallExpression -> RuleContext -> option ParsedJestFnCall.

Definition jestFnCall_type_is (jestFnCall : option ParsedJestFnCall) (ty : JestFnType) : bool :=
  match jestFnCall with
  | Some c => JestFnType_eqb (fn_type c) ty
  | None => false
  end.

Definition findCallbackArg (node : CallExpression) (isJestEach : bool)
    (context : RuleContext) : option Node :=
  if isJestEach then nth_error (arguments node) 1
  else
    let jestFnCall := parseJestFnCall node context in
    if jestFnCall_type_is jestFnCall hook && (1 <=? List.length (arguments node))
    then nth_error (arguments node) 0
    else if jestFnCall_type_is jestFnCall test && (2 <=? List.length (arguments node))
    then nth_error (arguments node) 1
    else None.

(** [getNodeName(node.callee)?.endsWith('.each') ?? false] *)
Definition isJestEach_of (node : CallExpression) : bool :=
  match getNodeName (callee node) with
  | Some name => endsWith name ".each"
  | None => false
  end.

(** The visitor.  It returns the descriptors it hands to [context.report],
    in order. *)
Definition CallExpression (context : RuleContext) (node : CallExpression)
    : list Report.t :=
  let isJestEach := isJestEach_of node in
  if isJestEach &&
     negb (AST_NODE_TYPES.eqb (type (callee node)) AST_NODE_TYPES.TaggedTemplateExpression)
  then []
  else
    let callback := findCallbackArg node isJestEach context in
    let callbackArgIndex := Number isJestEach in
    match callback with
    | None => []
    | Some callback =>
        if negb (isFunction callback) ||
           negb (List.length (params callback) =? 1 + callbackArgIndex)
        then []
        else
          match nth_error (params callback) callbackArgIndex with
          | None => []
          | Some argument =>
              match argument with
              | Identifier name _ =>
                  if async callback
                  then [ {| Report.node := argument;
                            Report.messageId := "useAwaitInsteadOfCallback";
                            Report.suggest := [] |} ]
                  else [ {| Report.node := argument;
                            Report.messageId := "noDoneCallback";
                            Report.suggest :=
                              [ {| Suggest.messageId := "suggestWrappingInPromise";
                                   Suggest.data := [("callback", name)];
                                   Suggest.run_fix := fix_ context callback name |} ] |} ]
              | _ =>
                  [ {| Report.node := argument;
                       Report.messageId := "noDoneCallback";
                       Report.suggest := [] |} ]
              end
          end
    end.

(** The callback the visitor nominates: nothing for an [.each] call that is
    not a tagged template, else what [findCallbackArg] returns. *)
Definition located (context : RuleContext) (node : TSESTree.CallExpression) : option Node :=
  if isJestEach_of node &&
     negb (AST_NODE_TYPES.eqb (type (callee node)) AST_NODE_TYPES.TaggedTemplateExpression)
  then None
  else findCallbackArg node (isJestEach_of node) context.

(** A matching call: its nominated callback passes the visitor's guards. *)
Definition matching (context : RuleContext) (node : TSESTree.CallExpression)
    (callback : Node) : Prop :=
  located context node = Some callback /\
  isFunction callback = true /\
  List.length (params callback) = 1 + Number (isJestEach_of node).

(** The parameter in the callback slot of a matching call. *)
Definition callbackSlot (node : TSESTree.CallExpression) (callback : Node) : option Node :=
  nth_error (params callback) (Number (isJestEach_of node)).

(** *** The classification, in the specification's words

    The specification describes the visitor's first steps as a classifier
    and a locator; these definitions follow its wording and are compared
    with the code below. *)

Inductive Classification : Set := NoMatch | Hook | Test | ParameterizedTest.

Definition spec_classify (context : RuleContext) (node : TSESTree.CallExpression)
    : Classification :=
  if isJestEach_of node
  then match type (callee node) with
       | AST_NODE_TYPES.TaggedTemplateExpression => ParameterizedTest
       | _ => NoMatch
       end
  else match parseJestFnCall node context with
       | Some c =>
           match fn_type c with
           | hook => if 1 <=? List.length (arguments node) then Hook else NoMatch
           | test => if 2 <=? List.length (arguments node) then Test else NoMatch
           | _ => NoMatch
           end
       | None => NoMatch
       end.

Definition spec_callbackIndex (c : Classification) : option nat :=
  match c with
  | ParameterizedTest => Some 1
  | Hook => Some 0
  | Test => Some 1
  | NoMatch => None
  end.

Definition spec_offset (c : Classification) : nat :=
  match c with
  | ParameterizedTest => 1
  | _ => 0
  end.

Definition spec_locate (context : RuleContext) (node : TSESTree.CallExpression)
    : option Node :=
  match spec_callbackIndex (spec_classify context node) with
  | Some i => nth_error (arguments node) i
  | None => None
  end.

End Rule.

(** ** Applying a plan to the source text

    The host merges the edits of one suggestion: it orders them by range and
    copies the original text between them.  Overlapping edits are refused. *)

Definition slice (s : string) (from to : nat) : string :=
  substring from (to - from) s.

Definition fix_leb (a b : Fix) : bool :=
  (fst (fix_range a) <? fst (fix_range b)) ||
  ((fst (fix_range a) =? fst (fix_range b)) && (snd (fix_range a) <=? snd (fix_range b))).

Fixpoint insertByRange (f : Fix) (sorted : list Fix) : list Fix :=
  match sorted with
  | [] => [f]
  | g :: rest => if fix_leb f g then f :: g :: rest else g :: insertByRange f rest
  end.

Definition sortByRange (fixes : list Fix) : list Fix :=
  fold_right insertByRange [] fixes.

Fixpoint mergeFrom (originalText : string) (lastPos : nat) (fixes : list Fix)
    : option string :=
  match fixes with
  | [] => Some (slice originalText lastPos (String.length originalText))
  | f :: rest =>
      if fst (fix_range f) <? lastPos then None
      else
        match mergeFrom originalText (snd (fix_range f)) rest with
        | Some tail =>
            Some (slice originalText lastPos (fst (fix_range f)) ++ fix_text f ++ tail)%string
        | None => None
        end
  end.

(** The offsets of a range count UTF-16 code units, the text here is a string
    of bytes: the two agree on a text of ASCII characters only. *)
Fixpoint isAscii (s : string) : bool :=
  match s with
  | EmptyString => true
  | String c rest => (nat_of_ascii c <? 128) && isAscii rest
  end.

(** The merged text, for an ASCII source; a source with another character is
    outside this model of the host and is refused. *)
Definition applyFixes (originalText : string) (fixes : list Fix) : option string :=
  if isAscii originalText
  then mergeFrom originalText 0 (sortByRange fixes)
  else None.

(** ** Relations between an edit and a span *)




(** ** Three statements in the specification's words

    These follow the wording of the specification, not the code; each is
    compared with the code further down. *)

(** The parameter edit: replace the callback-slot parameter by an empty
    parameter list, unless that parameter is the only one and sits inside its
    own parentheses, in which case the span between them is removed. *)
Definition spec_parameterEdit (sourceCode : SourceCode) (ps : list Node)
    (argument : Node) : Fix :=
  match ps with
  | [p] =>
      match getTokenBefore sourceCode p, getTokenAfter sourceCode p with
      | Some b, Some a =>
          if String.eqb (value b) "(" && String.eqb (value a) ")"
          then fixer.removeRange (snd (range b), fst (range a))
          else fixer.replaceText argument "()"
      | _, _ => fixer.replaceText argument "()"
      end
  | _ => fixer.replaceText argument "()"
  end.

Definition parameterEdit_as_specified (context : RuleContext)
    (callback argument : Node) (name : string) : Prop :=
  forall edit rest,
    fix_ context callback name = Returned (edit :: rest) ->
    edit = spec_parameterEdit (getSourceCode context) (params callback) argument.

(** The body edits of a block-bodied callback: the opening text after the
    first body token, and the text [})] after the last body token. *)
Definition blockEdits_as_specified (context : RuleContext) (callback : Node)
    (name : string) : Prop :=
  forall plan b firstBodyToken lastBodyToken,
    fix_ context callback name = Returned plan ->
    body callback = Some b ->
    type b = AST_NODE_TYPES.BlockStatement ->
    getFirstToken (getSourceCode context) b = Some firstBodyToken ->
    getLastToken (getSourceCode context) b = Some lastBodyToken ->
    In (fixer.insertTextAfter firstBodyToken
          ("return new Promise(" ++ name ++ " => {")%string) plan /\
    In (fixer.insertTextAfter lastBodyToken "})") plan.


(** ** Sample sources

    Each sample is a source text with its tokens and the call expression a
    parser builds for it; [tok] cuts a token's value out of the text. *)

Definition tok (src : string) (r : Range) : Token :=
  {| value := slice src (fst r) (snd r); token_loc := r |}.

Definition sample (src : string) (spans : list Range) : RuleContext :=
  {| getSourceCode := {| text := src; tokens := map (tok src) spans |};
     getFilename := "sample.js" |}.

(** The helpers of [./utils] on a sample: the callee's dotted name, and the
    kind of jest call. *)
Definition named (name : string) : Node -> option string :=
  fun _ => Some name.

Definition parsedAs (name : string) (ty : JestFnType)
    : TSESTree.CallExpression -> RuleContext -> option ParsedJestFnCall :=
  fun _ _ => Some {| fn_name := name; fn_type := ty |}.

Module hookBlock.
Definition src : string := "beforeEach(function (done) { done(); })".
Definition context : RuleContext :=
  sample src [(0, 10); (10, 11); (11, 19); (20, 21); (21, 25); (25, 26); (27, 28);
              (29, 33); (33, 34); (34, 35); (35, 36); (37, 38); (38, 39)].
Definition done : Node := Identifier "done" (21, 25).
Definition callback : Node :=
  FunctionExpression false [done] (BlockStatement (27, 38)) (11, 38).
Definition node : TSESTree.CallExpression :=
  {| callee := Identifier "beforeEach" (0, 10); arguments := [callback]; call_loc := (0, 39) |}.
Definition run : list Report.t :=
  CallExpression (named "beforeEach") (parsedAs "beforeEach" hook) context node.
End hookBlock.

Module eachTagged.
Definition src : string := "test.each``('x', function (n, done) { done(); })".
Definition context : RuleContext :=
  sample src [(0, 4); (4, 5); (5, 9); (9, 11); (11, 12); (12, 15); (15, 16); (17, 25);
              (26, 27); (27, 28); (28, 29); (30, 34); (34, 35); (36, 37); (38, 42);
              (42, 43); (43, 44); (44, 45); (46, 47); (47, 48)].
Definition n : Node := Identifier "n" (27, 28).
Definition done : Node := Identifier "done" (30, 34).
Definition callback : Node :=
  FunctionExpression false [n; done] (BlockStatement (36, 47)) (17, 47).
Definition node : TSESTree.CallExpression :=
  {| callee := TaggedTemplateExpression (0, 11);
     arguments := [Literal (12, 15); callback]; call_loc := (0, 48) |}.
Definition run : list Report.t :=
  CallExpression (named "test.each") (parsedAs "test" test) context node.
End eachTagged.

Module testArrowExpr.
Definition src : string := "test('x', done => done())".
Definition context : RuleContext :=
  sample src [(0, 4); (4, 5); (5, 8); (8, 9); (10, 14); (15, 17); (18, 22); (22, 23);
              (23, 24); (24, 25)].
Definition done : Node := Identifier "done" (10, 14).
Definition callback : Node :=
  ArrowFunctionExpression false [done] (Call (18, 24)) (10, 24).
Definition node : TSESTree.CallExpression :=
  {| callee := Identifier "test" (0, 4);
     arguments := [Literal (5, 8); callback]; call_loc := (0, 25) |}.
Definition run : list Report.t :=
  CallExpression (named "test") (parsedAs "test" test) context node.
End testArrowExpr.

Module trailingComma.
Definition src : string := "test('x', (done,) => {})".
Definition context : RuleContext :=
  sample src [(0, 4); (4, 5); (5, 8); (8, 9); (10, 11); (11, 15); (15, 16); (16, 17);
              (18, 20); (21, 22); (22, 23); (23, 24)].
Definition done : Node := Identifier "done" (11, 15).
Definition callback : Node :=
  ArrowFunctionExpression false [done] (BlockStatement (21, 23)) (10, 23).
Definition node : TSESTree.CallExpression :=
  {| callee := Identifier "test" (0, 4);
     arguments := [Literal (5, 8); callback]; call_loc := (0, 24) |}.
Definition run : list Report.t :=
  CallExpression (named "test") (parsedAs "test" test) context node.
End trailingComma.

Module eachDirect.
Definition src : string := "test.each([1, 2])('x', function (n, done) { done(); })".
Definition context : RuleContext :=
  sample src [(0, 4); (4, 5); (5, 9); (9, 10); (10, 11); (11, 12); (12, 13); (14, 15);
              (15, 16); (16, 17); (17, 18); (18, 21); (21, 22); (23, 31); (32, 33);
              (33, 34); (34, 35); (36, 40); (40, 41); (42, 43); (44, 48); (48, 49);
              (49, 50); (50, 51); (52, 53); (53, 54)].
Definition callback : Node :=
  FunctionExpression false [Identifier "n" (33, 34); Identifier "done" (36, 40)]
    (BlockStatement (42, 53)) (23, 53).
Definition node : TSESTree.CallExpression :=
  {| callee := Call (0, 17);
     arguments := [Literal (18, 21); callback]; call_loc := (0, 54) |}.
End eachDirect.

Module asyncHook.
Definition src : string := "beforeEach(async (done) => { done(); })".
Definition context : RuleContext :=
  sample src [(0, 10); (10, 11); (11, 16); (17, 18); (18, 22); (22, 23); (24, 26);
              (27, 28); (29, 33); (33, 34); (34, 35); (35, 36); (37, 38); (38, 39)].
Definition done : Node := Identifier "done" (18, 22).
Definition callback : Node :=
  ArrowFunctionExpression true [done] (BlockStatement (27, 38)) (11, 38).
Definition node : TSESTree.CallExpression :=
  {| callee := Identifier "beforeEach" (0, 10); arguments := [callback]; call_loc := (0, 39) |}.
End asyncHook.

Module destructured.
Definition src : string := "beforeEach(({ done }) => { done(); })".
Definition context : RuleContext :=
  sample src [(0, 10); (10, 11); (11, 12); (12, 13); (14, 18); (19, 20); (20, 21);
              (22, 24); (25, 26); (27, 31); (31, 32); (32, 33); (33, 34); (35, 36);
              (36, 37)].
Definition pattern : Node := ObjectPattern (12, 20).
Definition callback : Node :=
  ArrowFunctionExpression false [pattern] (BlockStatement (25, 36)) (11, 36).
Definition node : TSESTree.CallExpression :=
  {| callee := Identifier "beforeEach" (0, 10); arguments := [callback]; call_loc := (0, 37) |}.
End destructured.

Module hookRewritten.
Definition src : string :=
  "beforeEach(function () {return new Promise(done => { done(); })})".
Definition context : RuleContext :=
  sample src [(0, 10); (10, 11); (11, 19); (20, 21); (21, 22); (23, 24); (24, 30);
              (31, 34); (35, 42); (42, 43); (43, 47); (48, 50); (51, 52); (53, 57);
              (57, 58); (58, 59); (59, 60); (61, 62); (62, 63); (63, 64); (64, 65)].
Definition callback : Node :=
  FunctionExpression false [] (BlockStatement (23, 64)) (11, 64).
Definition node : TSESTree.CallExpression :=
  {| callee := Identifier "beforeEach" (0, 10); arguments := [callback]; call_loc := (0, 65) |}.
End hookRewritten.

(** ** The rule's metadata *)

Module Meta.
Record Docs : Type := {
  category : string;
  description : string;
  recommended : string
}.

Record t : Type := {
  docs : Docs;
  messages : list (string * string);
  schema : list string;
  type : string;
  hasSuggestions : bool
}.
End Meta.

Definition meta : Meta.t :=
  {| Meta.docs :=
       {| Meta.category := "Best Practices";
          Meta.description := "Disallow using a callback in asynchronous tests and hooks";
          Meta.recommended := "error" |};
     Meta.messages :=
       [ ("noDoneCallback", "Return a Promise instead of relying on callback parameter");
         ("suggestWrappingInPromise", "Wrap in `new Promise({{ callback }} => ...`");
         ("useAwaitInsteadOfCallback", "Use await instead of callback in async functions") ];
     Meta.schema := [];
     Meta.type := "suggestion";
     Meta.hasSuggestions := true |}.

(** A message id the metadata declares. *)
Definition declared (messageId : string) : Prop :=
  In messageId (map fst (Meta.messages meta)).

(** ** Measures on plans and token lists *)

(** How often the character [c] occurs in [s]. *)
Fixpoint count_char (c : ascii) (s : string) : nat :=
  match s with
  | EmptyString => 0
  | String x rest => (if Ascii.eqb x c then 1 else 0) + count_char c rest
  end.

(** How often [c] occurs in the texts a plan puts into the source. *)
Definition count_inserted (c : ascii) (plan : list Fix) : nat :=
  list_sum (map (fun e => count_char c (fix_text e)) plan).

(** The tokens are in source order: every range is well formed and every
    token ends where the next one starts, or before. *)
Fixpoint tokensInOrder (l : list Token) : bool :=
  match l with
  | [] => true
  | t :: rest =>
      (fst (range t) <=? snd (range t)) &&
      match rest with
      | [] => true
      | u :: _ => snd (range t) <=? fst (range u)
      end &&
      tokensInOrder rest
  end.

(** The edits of a plan are listed in source order and do not overlap. *)
Fixpoint editsInOrder (plan : list Fix) : Prop :=
  match plan with
  | [] => True
  | e :: rest =>
      fst (fix_range e) <= snd (fix_range e) /\
      match rest with
      | [] => True
      | f :: _ => snd (fix_range e) <= fst (fix_range f)
      end /\
      editsInOrder rest
  end.

(** The call [node] with further arguments after its own. *)
Definition withTrailingArguments (node : TSESTree.CallExpression) (extra : list Node)
    : TSESTree.CallExpression :=
  {| callee := callee node;
     arguments := arguments node ++ extra;
     call_loc := call_loc node |}.

(** ** Further samples *)

Module notJest.
Definition src : string := "foo((done) => {})".
Definition context : RuleContext :=
  sample src [(0, 3); (3, 4); (4, 5); (5, 9); (9, 10); (11, 13); (14, 15); (15, 16);
              (16, 17)].
Definition callback : Node :=
  ArrowFunctionExpression false [Identifier "done" (5, 9)] (BlockStatement (14, 16)) (4, 16).
Definition node : TSESTree.CallExpression :=
  {| callee := Identifier "foo" (0, 3); arguments := [callback]; call_loc := (0, 17) |}.
Definition notParsed : TSESTree.CallExpression -> RuleContext -> option ParsedJestFnCall :=
  fun _ _ => None.
End notJest.

Module hookTimeout.
Definition src : string := "beforeEach(function (done) { done(); }, 500)".
Definition context : RuleContext :=
  sample src [(0, 10); (10, 11); (11, 19); (20, 21); (21, 25); (25, 26); (27, 28);
              (29, 33); (33, 34); (34, 35); (35, 36); (37, 38); (38, 39); (40, 43);
              (43, 44)].
Definition timeout : Node := Literal (40, 43).
Definition callOnly : TSESTree.CallExpression :=
  {| callee := Identifier "beforeEach" (0, 10);
     arguments := [hookBlock.callback]; call_loc := (0, 44) |}.
End hookTimeout.

(** The suggestion and the report the rule hands over for the hook sample. *)
Definition hookBlock_suggestion : Suggest.t :=
  {| Suggest.messageId := "suggestWrappingInPromise";
     Suggest.data := [("callback", "done")];
     Suggest.run_fix := fix_ hookBlock.context hookBlock.callback "done" |}.

Definition hookBlock_report : Report.t :=
  {| Report.node := hookBlock.done;
     Report.messageId := "noDoneCallback";
     Report.suggest := [hookBlock_suggestion] |}.

Module tokensWithoutBody.
(** The trailing-comma sample with a token list that stops at the closing
    parenthesis of the parameter list: the tokens of the body are not in it. *)
Definition context : RuleContext :=
  sample trailingComma.src
    [(0, 4); (4, 5); (5, 8); (8, 9); (10, 11); (11, 15); (15, 16); (16, 17)].
End tokensWithoutBody.

Module danglingComma.
(** A token list that stops at the comma after the parameter. *)
Definition context : RuleContext :=
  sample trailingComma.src [(0, 4); (4, 5); (5, 8); (8, 9); (10, 11); (11, 15); (15, 16)].
End danglingComma.

(** ** Sample runs *)

Example hookBlock_run :
  hookBlock.run =
  [ {| Report.node := hookBlock.done;
       Report.messageId := "noDoneCallback";
       Report.suggest :=
         [ {| Suggest.messageId := "suggestWrappingInPromise";
              Suggest.data := [("callback", "done")];
              Suggest.run_fix :=
                Returned [ {| fix_range := (21, 25); fix_text := "" |};
                           {| fix_range := (28, 28); fix_text := "return new Promise(done => {" |};
                           {| fix_range := (38, 38); fix_text := ")}" |} ] |} ] |} ].
Proof. vm_compute. reflexivity. Qed.

(** ** Facts about strings *)

Lemma length_append (p s : string) :
  String.length (p ++ s) = String.length p + String.length s.
Proof. induction p as [|c p IH]; simpl; [reflexivity | now rewrite IH]. Qed.

Lemma append_assoc (a b c : string) : ((a ++ b) ++ c = a ++ (b ++ c))%string.
Proof. induction a as [|x a IH]; simpl; [reflexivity | now rewrite IH]. Qed.

(** The opening text of a block body, as the fix builds it. *)
Lemma block_opening_text (name : string) :
  ("return" ++ " " ++ ("new Promise(" ++ name ++ " => ") ++ "{")%string =
  ("return new Promise(" ++ name ++ " => {")%string.
Proof.
  rewrite (append_assoc "new Promise(" (name ++ " => ") "{").
  rewrite (append_assoc name " => " "{"). reflexivity.
Qed.

Lemma substring_whole (s : string) : substring 0 (String.length s) s = s.
Proof. induction s as [|c s IH]; simpl; [reflexivity | now rewrite IH]. Qed.

Lemma substring_skip_prefix (p s : string) :
  substring (String.length p) (String.length s) (p ++ s) = s.
Proof. induction p as [|c p IH]; simpl; [apply substring_whole | exact IH]. Qed.

(** A string that is [prefix ++ suffix] ends with [suffix]. *)
Lemma endsWith_append (prefix suffix : string) :
  endsWith (prefix ++ suffix) suffix = true.
Proof.
  unfold endsWith. rewrite length_append.
  replace (String.length prefix + String.length suffix - String.length suffix)
    with (String.length prefix) by lia.
  rewrite substring_skip_prefix, String.eqb_refl.
  apply andb_true_intro; split; [apply Nat.leb_le; lia | reflexivity].
Qed.

(** ** Facts about the token queries *)



(** ** Facts about node shapes *)

Lemma AST_NODE_TYPES_eqb_eq (a b : AST_NODE_TYPES.t) :
  AST_NODE_TYPES.eqb a b = true <-> a = b.
Proof. destruct a, b; simpl; split; intros H; try reflexivity; discriminate H. Qed.

Lemma AST_NODE_TYPES_eqb_neq (a b : AST_NODE_TYPES.t) :
  AST_NODE_TYPES.eqb a b = false <-> a <> b.
Proof.
  split.
  - intros H E. apply AST_NODE_TYPES_eqb_eq in E. congruence.
  - intros H. destruct (AST_NODE_TYPES.eqb a b) eqn:E; [|reflexivity].
    apply AST_NODE_TYPES_eqb_eq in E. contradiction.
Qed.

Lemma type_Identifier_inv (n : Node) :
  type n = AST_NODE_TYPES.Identifier -> exists name l, n = Identifier name l.
Proof. destruct n; simpl; intros E; try discriminate E. eauto. Qed.


(** ** The fix, edit by edit *)


(** The callback of a matching call has a body and a first parameter: the
    fix reads neither from a node that lacks it. *)
Lemma function_has_body_and_first_param (callback : Node) (k : nat) :
  isFunction callback = true ->
  List.length (params callback) = 1 + k ->
  exists b firstParam rest,
    body callback = Some b /\ params callback = firstParam :: rest.
Proof.
  intros Hfun Hlen.
  destruct callback as [? ?|a ps b l|a ps b l|?|?|?|?|?|?|?|?|?|?];
    simpl in Hfun; try discriminate Hfun;
    simpl in *; destruct ps as [|p rest]; try discriminate Hlen; eauto.
Qed.

(** What a returned plan is made of: the four anchor tokens were found, and
    the plan is the parameter edit followed by the two body edits. *)
Lemma fix_returned_inv (context : RuleContext) (callback : Node) (name : string)
    (plan : list Fix) :
  fix_ context callback name = Returned plan ->
  exists b firstParam rest firstBodyToken lastBodyToken tokenBefore tokenAfter,
    body callback = Some b /\
    params callback = firstParam :: rest /\
    getFirstToken (getSourceCode context) b = Some firstBodyToken /\
    getLastToken (getSourceCode context) b = Some lastBodyToken /\
    getTokenBefore (getSourceCode context) firstParam = Some tokenBefore /\
    skipComma (getSourceCode context)
      (getTokenAfter (getSourceCode context) (last (firstParam :: rest) firstParam))
      = Some tokenAfter /\
    plan =
      [ if String.eqb (value tokenBefore) "(" && String.eqb (value tokenAfter) ")"
        then fixer.removeRange (snd (range tokenBefore), fst (range tokenAfter))
        else fixer.replaceText firstParam "()";
        if AST_NODE_TYPES.eqb (type b) AST_NODE_TYPES.BlockStatement
        then fixer.insertTextAfter firstBodyToken
               ("return new Promise(" ++ name ++ " => {")%string
        else fixer.insertTextBefore firstBodyToken
               ("new Promise(" ++ name ++ " => ")%string;
        fixer.insertTextAfter lastBodyToken
          (if AST_NODE_TYPES.eqb (type b) AST_NODE_TYPES.BlockStatement
           then ")}" else ")")%string ].
Proof.
  unfold fix_.
  destruct (body callback) as [b|]; [|discriminate].
  destruct (params callback) as [|firstParam rest] eqn:Hps; [discriminate|].
  cbv zeta. rewrite block_opening_text.
  destruct (getFirstToken (getSourceCode context) b) as [fb|] eqn:Hfb; [|discriminate].
  destruct (getLastToken (getSourceCode context) b) as [lb|] eqn:Hlb; [|discriminate].
  destruct (getTokenBefore (getSourceCode context) firstParam) as [tb|] eqn:Htb;
    [|discriminate].
  destruct (skipComma (getSourceCode context) _) as [ta|] eqn:Hta; [|discriminate].
  intros Hplan. exists b, firstParam, rest, fb, lb, tb, ta.
  repeat split; try reflexivity; try assumption.
  destruct (AST_NODE_TYPES.eqb (type b) AST_NODE_TYPES.BlockStatement);
    injection Hplan as <-; reflexivity.
Qed.

(** C2 (as amended): for every rewrite the fix emits, a block body gets
    the text [return new Promise(<cb> => {] inserted immediately after its
    first token (the opening brace) and the text [)}] inserted immediately
    after its last token; an expression body gets [new Promise(<cb> => ]
    inserted immediately before its first token and [)] immediately after its
    last token, with no return keyword and no braces.  [<cb>] is the name of
    the callback parameter. *)
Theorem C2_body_edits (context : RuleContext) (callback : Node) (name : string)
    (plan : list Fix) :
  fix_ context callback name = Returned plan ->
  exists b firstBodyToken lastBodyToken argumentFix opening closing,
    body callback = Some b /\
    getFirstToken (getSourceCode context) b = Some firstBodyToken /\
    getLastToken (getSourceCode context) b = Some lastBodyToken /\
    plan = [argumentFix; opening; closing] /\
    (type b = AST_NODE_TYPES.BlockStatement ->
       opening =
         {| fix_range := (snd (range firstBodyToken), snd (range firstBodyToken));
            fix_text := ("return new Promise(" ++ name ++ " => {")%string |} /\
       closing =
         {| fix_range := (snd (range lastBodyToken), snd (range lastBodyToken));
            fix_text := ")}" |}) /\
    (type b <> AST_NODE_TYPES.BlockStatement ->
       opening =
         {| fix_range := (fst (range firstBodyToken), fst (range firstBodyToken));
            fix_text := ("new Promise(" ++ name ++ " => ")%string |} /\
       closing =
         {| fix_range := (snd (range lastBodyToken), snd (range lastBodyToken));
            fix_text := ")" |}).
Proof.
  intros Hfix.
  destruct (fix_returned_inv _ _ _ Hfix)
    as (b & firstParam & rest & fb & lb & tb & ta & Hb & _ & Hfb & Hlb & _ & _ & ->).
  exists b, fb, lb. do 3 eexists.
  split; [exact Hb|]. split; [exact Hfb|]. split; [exact Hlb|].
  split; [reflexivity|].
  split.
  - intros Hty. apply AST_NODE_TYPES_eqb_eq in Hty. rewrite Hty. split; reflexivity.
  - intros Hty. apply AST_NODE_TYPES_eqb_neq in Hty. rewrite Hty. split; reflexivity.
Qed.

(** C3 (as amended): for every rewrite the fix emits, the parameter edit
    removes the span between the token before the first parameter and the
    token after the last parameter (taken past one trailing comma) whenever
    these two tokens are [(] and [)], whatever the number of parameters;
    otherwise it replaces the text span of the first parameter with [()]. *)
Theorem C3_parameter_edit (context : RuleContext) (callback : Node) (name : string)
    (plan : list Fix) :
  fix_ context callback name = Returned plan ->
  exists firstParam rest tokenBefore tokenAfter opening closing,
    params callback = firstParam :: rest /\
    getTokenBefore (getSourceCode context) firstParam = Some tokenBefore /\
    skipComma (getSourceCode context)
      (getTokenAfter (getSourceCode context) (last (firstParam :: rest) firstParam))
      = Some tokenAfter /\
    (value tokenBefore = "(" /\ value tokenAfter = ")" ->
       plan = [ fixer.removeRange (snd (range tokenBefore), fst (range tokenAfter));
                opening; closing ]) /\
    (~ (value tokenBefore = "(" /\ value tokenAfter = ")") ->
       plan = [ fixer.replaceText firstParam "()"; opening; closing ]).
Proof.
  intros Hfix.
  destruct (fix_returned_inv _ _ _ Hfix)
    as (b & firstParam & rest & fb & lb & tb & ta & _ & Hps & _ & _ & Htb & Hta & ->).
  exists firstParam, rest, tb, ta. do 2 eexists.
  split; [exact Hps|]. split; [exact Htb|]. split; [exact Hta|].
  split.
  - intros [Eb Ea]. rewrite Eb, Ea. reflexivity.
  - intros Hno.
    destruct (String.eqb_spec (value tb) "(") as [Eb|Nb];
      destruct (String.eqb_spec (value ta) ")") as [Ea|Na];
      simpl; try reflexivity.
    elim Hno. now split.
Qed.

(** C8: when one of the four anchor tokens (first body token, last body
    token, token before the first parameter, token after the last parameter)
    cannot be located, the fix throws and returns no edit; and whenever it
    does return, all four anchors were located and the plan is the whole
    three-edit plan, never a part of it. *)
Theorem C8_missing_anchor_throws (context : RuleContext) (callback : Node)
    (name : string) (b firstParam : Node) (rest : list Node) :
  body callback = Some b ->
  params callback = firstParam :: rest ->
  (getFirstToken (getSourceCode context) b = None \/
   getLastToken (getSourceCode context) b = None \/
   getTokenBefore (getSourceCode context) firstParam = None \/
   getTokenAfter (getSourceCode context) (last (firstParam :: rest) firstParam) = None ->
   fix_ context callback name = Thrown (unexpected_null context)) /\
  (forall plan,
     fix_ context callback name = Returned plan ->
     List.length plan = 3 /\
     getFirstToken (getSourceCode context) b <> None /\
     getLastToken (getSourceCode context) b <> None /\
     getTokenBefore (getSourceCode context) firstParam <> None /\
     getTokenAfter (getSourceCode context) (last (firstParam :: rest) firstParam) <> None).
Proof.
  intros Hb Hps. split.
  - intros Hmiss. unfold fix_. rewrite Hb, Hps. cbv zeta.
    destruct Hmiss as [H | [H | [H | H]]]; rewrite H; simpl skipComma;
      destruct (getFirstToken (getSourceCode context) b);
      destruct (getLastToken (getSourceCode context) b);
      destruct (getTokenBefore (getSourceCode context) firstParam);
      try discriminate H; reflexivity.
  - intros plan Hfix.
    destruct (fix_returned_inv _ _ _ Hfix)
      as (b' & firstParam' & rest' & fb & lb & tb & ta & Hb' & Hps' & Hfb & Hlb & Htb & Hta & ->).
    rewrite Hb in Hb'. injection Hb' as <-.
    rewrite Hps in Hps'. injection Hps' as <- <-.
    rewrite Hfb, Hlb, Htb.
    repeat split; try discriminate.
    intros Hnone. rewrite Hnone in Hta. discriminate Hta.
Qed.


(** ** The visitor, case by case *)

Ltac unfold_rule := unfold matching, located, callbackSlot, CallExpression in *.
Ltac unfold_spec :=
  unfold spec_locate, spec_classify, findCallbackArg, jestFnCall_type_is in *.
Ltac unfold_each := unfold isJestEach_of in *.
Ltac unfold_matching := unfold matching in *.

Section RuleFacts.

Variable getNodeName : Node -> option string.
Variable parseJestFnCall : TSESTree.CallExpression -> RuleContext -> option ParsedJestFnCall.

Local Abbreviation visit := (CallExpression getNodeName parseJestFnCall).
Local Abbreviation located := (located getNodeName parseJestFnCall).
Local Abbreviation matching := (matching getNodeName parseJestFnCall).
Local Abbreviation isJestEach_of := (isJestEach_of getNodeName).
Local Abbreviation callbackSlot := (callbackSlot getNodeName).
Local Abbreviation spec_classify := (spec_classify getNodeName parseJestFnCall).
Local Abbreviation spec_locate := (spec_locate getNodeName parseJestFnCall).


(** A call whose callback is not nominated gets no report. *)
Lemma visit_not_located (context : RuleContext) (node : TSESTree.CallExpression) :
  located context node = None -> visit context node = [].
Proof.
  unfold_rule.
  destruct (isJestEach_of node && _); [reflexivity|].
  intros ->. reflexivity.
Qed.

(** A nominated callback that fails a shape guard gets no report. *)
Lemma visit_guard_fails (context : RuleContext) (node : TSESTree.CallExpression)
    (callback : Node) :
  located context node = Some callback ->
  isFunction callback = false \/
    List.length (params callback) <> 1 + Number (isJestEach_of node) ->
  visit context node = [].
Proof.
  unfold_rule.
  destruct (isJestEach_of node && _); [discriminate|].
  intros -> [Hf | Hl].
  - rewrite Hf. reflexivity.
  - apply Nat.eqb_neq in Hl. rewrite Hl, orb_true_r. reflexivity.
Qed.

(** The callback slot of a matching call holds a parameter. *)
Lemma matching_slot (context : RuleContext) (node : TSESTree.CallExpression)
    (callback : Node) :
  matching context node callback ->
  exists argument, callbackSlot node callback = Some argument.
Proof.
  intros (_ & _ & Hl). unfold_rule.
  destruct (nth_error (params callback) (Number (isJestEach_of node)))
    as [a|] eqn:E; [eauto|].
  apply nth_error_None in E. lia.
Qed.

(** The report of a matching call, by the shape of the callback-slot
    parameter and the [async] flag. *)
Lemma visit_matching (context : RuleContext) (node : TSESTree.CallExpression)
    (callback argument : Node) :
  matching context node callback ->
  callbackSlot node callback = Some argument ->
  visit context node =
  match argument with
  | Identifier name _ =>
      if async callback
      then [ {| Report.node := argument;
                Report.messageId := "useAwaitInsteadOfCallback";
                Report.suggest := [] |} ]
      else [ {| Report.node := argument;
                Report.messageId := "noDoneCallback";
                Report.suggest :=
                  [ {| Suggest.messageId := "suggestWrappingInPromise";
                       Suggest.data := [("callback", name)];
                       Suggest.run_fix := fix_ context callback name |} ] |} ]
  | _ => [ {| Report.node := argument;
              Report.messageId := "noDoneCallback";
              Report.suggest := [] |} ]
  end.
Proof.
  intros (Hloc & Hfun & Hlen) Hslot. unfold_rule.
  destruct (isJestEach_of node && _); [discriminate|].
  rewrite Hloc, Hfun, Hlen, Nat.eqb_refl, Hslot. simpl.
  destruct argument; reflexivity.
Qed.

(** A call is reported exactly when it is a matching call. *)
Lemma visit_reports_iff_matching (context : RuleContext) (node : TSESTree.CallExpression) :
  visit context node <> [] <-> exists callback, matching context node callback.
Proof.
  split.
  - intros Hne. destruct (located context node) as [callback|] eqn:Hloc.
    + exists callback. split; [exact Hloc|].
      destruct (isFunction callback) eqn:Hf.
      * split; [reflexivity|].
        destruct (Nat.eq_dec (List.length (params callback)) (1 + Number (isJestEach_of node)))
          as [E|NE]; [exact E|].
        exfalso. apply Hne. apply (visit_guard_fails _ _ Hloc). now right.
      * exfalso. apply Hne. apply (visit_guard_fails _ _ Hloc). now left.
    + exfalso. apply Hne. now apply visit_not_located.
  - intros [callback Hm]. destruct (matching_slot Hm) as [argument Hslot].
    rewrite (visit_matching Hm Hslot).
    destruct argument; try discriminate. destruct (async callback); discriminate.
Qed.

(** *** The classification of the specification agrees with the code *)

Lemma located_spec_locate (context : RuleContext) (node : TSESTree.CallExpression) :
  located context node = spec_locate context node.
Proof.
  unfold_rule. unfold_spec.
  destruct (isJestEach_of node).
  - destruct (type (callee node)); reflexivity.
  - rewrite andb_false_l.
    destruct (parseJestFnCall node context) as [c|]; [|reflexivity].
    destruct (1 <=? List.length (arguments node)), (2 <=? List.length (arguments node)),
      (fn_type c); reflexivity.
Qed.

Lemma located_offset (context : RuleContext) (node : TSESTree.CallExpression) :
  located context node <> None ->
  Number (isJestEach_of node) =
  spec_offset (spec_classify context node).
Proof.
  unfold_rule. unfold_spec.
  destruct (isJestEach_of node).
  - destruct (type (callee node)); simpl; intros Hne; try reflexivity; now elim Hne.
  - intros _. destruct (parseJestFnCall node context) as [c|]; [|reflexivity].
    destruct (1 <=? List.length (arguments node)), (2 <=? List.length (arguments node)),
      (fn_type c); reflexivity.
Qed.

(** *** The claims about the visitor *)

(** C4: for every matching call whose callback is a synchronous function
    literal with a plain identifier in the callback slot, exactly one
    diagnostic is produced; it is anchored at the callback parameter node
    (not at the call), it carries exactly one suggestion, and the data of
    that suggestion supplies the identifier's name. *)
Theorem C4_sync_identifier_reported_once (context : RuleContext)
    (node : TSESTree.CallExpression) (callback : Node) (name : string) (l : Range) :
  matching context node callback ->
  callbackSlot node callback = Some (Identifier name l) ->
  async callback = false ->
  exists d s,
    visit context node = [d] /\
    Report.node d = Identifier name l /\
    range (Report.node d) = l /\
    Report.suggest d = [s] /\
    Suggest.messageId s = "suggestWrappingInPromise" /\
    Suggest.data s = [("callback", name)] /\
    Suggest.run_fix s = fix_ context callback name.
Proof.
  intros Hm Hslot Hsync.
  rewrite (visit_matching Hm Hslot), Hsync.
  do 2 eexists. repeat split.
Qed.

(** C5: a diagnostic is produced only when the callback argument located per
    classification (index 0 for a hook call with at least one argument,
    index 1 for a test call with at least two, index 1 for a tagged-template
    parameterized test, nothing otherwise) exists, is a function literal and
    has exactly [1 + offset] parameters, the offset being 1 for a
    parameterized test and 0 otherwise; a call that fails one of these guards
    produces no diagnostic. *)
Theorem C5_reported_only_when_guards_pass (context : RuleContext)
    (node : TSESTree.CallExpression) :
  visit context node <> [] <->
  exists callback,
    spec_locate context node = Some callback /\
    isFunction callback = true /\
    List.length (params callback) = 1 + spec_offset (spec_classify context node).
Proof.
  rewrite visit_reports_iff_matching. unfold_matching.
  rewrite <- located_spec_locate.
  split; intros (callback & Hloc & Hfun & Hlen); exists callback;
    (split; [exact Hloc|]); (split; [exact Hfun|]);
    assert (Hoff : Number (isJestEach_of node) = spec_offset (spec_classify context node))
      by (apply located_offset; congruence).
  - rewrite <- Hoff. exact Hlen.
  - rewrite Hoff. exact Hlen.
Qed.

(** C6: for every matching callback the kind of the diagnostic is chosen in
    this order, with no rewrite offered in either case: a callback-slot
    parameter that is not a plain identifier gives [noDoneCallback] with no
    suggestion, whether or not the function is asynchronous; otherwise an
    asynchronous function gives [useAwaitInsteadOfCallback] with no
    suggestion. *)
Theorem C6_diagnostic_kind_order (context : RuleContext)
    (node : TSESTree.CallExpression) (callback argument : Node) :
  matching context node callback ->
  callbackSlot node callback = Some argument ->
  (type argument <> AST_NODE_TYPES.Identifier ->
     visit context node =
       [ {| Report.node := argument;
            Report.messageId := "noDoneCallback";
            Report.suggest := [] |} ]) /\
  (type argument = AST_NODE_TYPES.Identifier ->
   async callback = true ->
     visit context node =
       [ {| Report.node := argument;
            Report.messageId := "useAwaitInsteadOfCallback";
            Report.suggest := [] |} ]).
Proof.
  intros Hm Hslot. rewrite (visit_matching Hm Hslot). split.
  - intros Hty. destruct argument; try reflexivity. now elim Hty.
  - intros Hty Hasync. destruct (type_Identifier_inv _ Hty) as (name & l & ->).
    rewrite Hasync. reflexivity.
Qed.

(** C7: a call whose resolved callee name ends in [.each] and whose callee
    is not a tagged-template expression (the direct form [name(table)(args)])
    gets no diagnostic, whatever its arguments are. *)
Theorem C7_direct_each_not_reported (context : RuleContext)
    (node : TSESTree.CallExpression) (prefix : string) :
  getNodeName (callee node) = Some (prefix ++ ".each")%string ->
  type (callee node) <> AST_NODE_TYPES.TaggedTemplateExpression ->
  visit context node = [].
Proof.
  intros Hname Hty. unfold_rule. unfold_each.
  rewrite Hname, endsWith_append.
  apply AST_NODE_TYPES_eqb_neq in Hty. rewrite Hty. reflexivity.
Qed.

(** A nominated callback without parameters fails the guard on the exact
    parameter count: the call is not reported.  This is the guard a callback
    meets once its parameter list has been emptied. *)
Lemma visit_ignores_parameterless_callback (context : RuleContext)
    (node : TSESTree.CallExpression) (callback : Node) :
  located context node = Some callback ->
  params callback = [] ->
  visit context node = [].
Proof.
  intros Hloc Hps. apply (visit_guard_fails _ _ Hloc).
  right. rewrite Hps. simpl. lia.
Qed.


End RuleFacts.

(** ** The claims on the sample sources *)

(** The tokens of two samples, as cut out of their texts. *)
Example hookBlock_token_values :
  map value (tokens (getSourceCode hookBlock.context)) =
  ["beforeEach"; "("; "function"; "("; "done"; ")"; "{"; "done"; "("; ")"; ";"; "}"; ")"].
Proof. vm_compute. reflexivity. Qed.

Example trailingComma_token_values :
  map value (tokens (getSourceCode trailingComma.context)) =
  ["test"; "("; "'x'"; ","; "("; "done"; ","; ")"; "=>"; "{"; "}"; ")"].
Proof. vm_compute. reflexivity. Qed.

(** The rewritten texts of four samples. *)
Example hookBlock_rewritten_text :
  applyFixes hookBlock.src
    [ {| fix_range := (21, 25); fix_text := "" |};
      {| fix_range := (28, 28); fix_text := "return new Promise(done => {" |};
      {| fix_range := (38, 38); fix_text := ")}" |} ]
  = Some hookRewritten.src.
Proof. vm_compute. reflexivity. Qed.

(** The hook sample end to end: the rule reports it once, the plan of the
    suggestion rewrites the text into the [hookRewritten] sample, and the rule
    reports nothing on that sample. *)
Example hookBlock_rewrite_and_rerun :
  exists d s plan,
    hookBlock.run = [d] /\
    Report.suggest d = [s] /\
    Suggest.run_fix s = Returned plan /\
    applyFixes hookBlock.src plan = Some hookRewritten.src /\
    CallExpression (named "beforeEach") (parsedAs "beforeEach" hook)
      hookRewritten.context hookRewritten.node = [].
Proof. do 3 eexists. repeat split; vm_compute; reflexivity. Qed.


Example eachTagged_rewritten_text :
  applyFixes eachTagged.src
    [ {| fix_range := (27, 34); fix_text := "" |};
      {| fix_range := (37, 37); fix_text := "return new Promise(done => {" |};
      {| fix_range := (47, 47); fix_text := ")}" |} ]
  = Some "test.each``('x', function () {return new Promise(done => { done(); })})".
Proof. vm_compute. reflexivity. Qed.

Example testArrowExpr_run :
  testArrowExpr.run =
  [ {| Report.node := testArrowExpr.done;
       Report.messageId := "noDoneCallback";
       Report.suggest :=
         [ {| Suggest.messageId := "suggestWrappingInPromise";
              Suggest.data := [("callback", "done")];
              Suggest.run_fix :=
                Returned [ {| fix_range := (10, 14); fix_text := "()" |};
                           {| fix_range := (18, 18); fix_text := "new Promise(done => " |};
                           {| fix_range := (24, 24); fix_text := ")" |} ] |} ] |} ].
Proof. vm_compute. reflexivity. Qed.

Example testArrowExpr_rewritten_text :
  applyFixes testArrowExpr.src
    [ {| fix_range := (10, 14); fix_text := "()" |};
      {| fix_range := (18, 18); fix_text := "new Promise(done => " |};
      {| fix_range := (24, 24); fix_text := ")" |} ]
  = Some "test('x', () => new Promise(done => done()))".
Proof. vm_compute. reflexivity. Qed.

Example trailingComma_rewritten_text :
  applyFixes trailingComma.src
    [ {| fix_range := (11, 16); fix_text := "" |};
      {| fix_range := (22, 22); fix_text := "return new Promise(done => {" |};
      {| fix_range := (23, 23); fix_text := ")}" |} ]
  = Some "test('x', () => {return new Promise(done => {})})".
Proof. vm_compute. reflexivity. Qed.



(** C2, as stated, fails on the hook sample: the text put after the last
    body token is [)}], not [})]. *)
Lemma C2_counterexample :
  ~ blockEdits_as_specified hookBlock.context hookBlock.callback "done".
Proof.
  intros Hspec.
  destruct (Hspec
              [ {| fix_range := (21, 25); fix_text := "" |};
                {| fix_range := (28, 28); fix_text := "return new Promise(done => {" |};
                {| fix_range := (38, 38); fix_text := ")}" |} ]
              (BlockStatement (27, 38))
              (tok hookBlock.src (27, 28)) (tok hookBlock.src (37, 38)))
    as [_ Hclosing]; try reflexivity.
  simpl in Hclosing.
  destruct Hclosing as [E | [E | [E | []]]]; discriminate E.
Qed.

Lemma C2_witness :
  exists b firstBodyToken lastBodyToken argumentFix opening closing,
    body hookBlock.callback = Some b /\
    getFirstToken (getSourceCode hookBlock.context) b = Some firstBodyToken /\
    getLastToken (getSourceCode hookBlock.context) b = Some lastBodyToken /\
    [ {| fix_range := (21, 25); fix_text := "" |};
      {| fix_range := (28, 28); fix_text := "return new Promise(done => {" |};
      {| fix_range := (38, 38); fix_text := ")}" |} ]
    = [argumentFix; opening; closing] /\
    (type b = AST_NODE_TYPES.BlockStatement ->
       opening =
         {| fix_range := (snd (range firstBodyToken), snd (range firstBodyToken));
            fix_text := "return new Promise(done => {" |} /\
       closing =
         {| fix_range := (snd (range lastBodyToken), snd (range lastBodyToken));
            fix_text := ")}" |}) /\
    (type b <> AST_NODE_TYPES.BlockStatement ->
       opening =
         {| fix_range := (fst (range firstBodyToken), fst (range firstBodyToken));
            fix_text := "new Promise(done => " |} /\
       closing =
         {| fix_range := (snd (range lastBodyToken), snd (range lastBodyToken));
            fix_text := ")" |}).
Proof.
  apply (@C2_body_edits hookBlock.context hookBlock.callback "done").
  reflexivity.
Defined.

(** C3, as stated, fails on the tagged-template sample: the callback slot is
    not the only parameter, yet the edit is the removal of the span between
    the parentheses, not the replacement of [done] by [()]. *)
Lemma C3_counterexample :
  ~ parameterEdit_as_specified eachTagged.context eachTagged.callback eachTagged.done "done".
Proof.
  intros Hspec.
  specialize (Hspec
                {| fix_range := (27, 34); fix_text := "" |}
                [ {| fix_range := (37, 37); fix_text := "return new Promise(done => {" |};
                  {| fix_range := (47, 47); fix_text := ")}" |} ]
                eq_refl).
  discriminate Hspec.
Qed.

(** The same statement fails on the trailing-comma sample too: the token
    immediately after the only parameter is a comma, yet the span between the
    parentheses is removed. *)
Example parameterEdit_as_specified_fails_on_trailing_comma :
  ~ parameterEdit_as_specified trailingComma.context trailingComma.callback
      trailingComma.done "done".
Proof.
  intros Hspec.
  specialize (Hspec
                {| fix_range := (11, 16); fix_text := "" |}
                [ {| fix_range := (22, 22); fix_text := "return new Promise(done => {" |};
                  {| fix_range := (23, 23); fix_text := ")}" |} ]
                eq_refl).
  discriminate Hspec.
Qed.

Lemma C3_witness :
  exists firstParam rest tokenBefore tokenAfter opening closing,
    params eachTagged.callback = firstParam :: rest /\
    getTokenBefore (getSourceCode eachTagged.context) firstParam = Some tokenBefore /\
    skipComma (getSourceCode eachTagged.context)
      (getTokenAfter (getSourceCode eachTagged.context) (last (firstParam :: rest) firstParam))
      = Some tokenAfter /\
    (value tokenBefore = "(" /\ value tokenAfter = ")" ->
       [ {| fix_range := (27, 34); fix_text := "" |};
         {| fix_range := (37, 37); fix_text := "return new Promise(done => {" |};
         {| fix_range := (47, 47); fix_text := ")}" |} ]
       = [ fixer.removeRange (snd (range tokenBefore), fst (range tokenAfter));
           opening; closing ]) /\
    (~ (value tokenBefore = "(" /\ value tokenAfter = ")") ->
       [ {| fix_range := (27, 34); fix_text := "" |};
         {| fix_range := (37, 37); fix_text := "return new Promise(done => {" |};
         {| fix_range := (47, 47); fix_text := ")}" |} ]
       = [ fixer.replaceText firstParam "()"; opening; closing ]).
Proof.
  apply (@C3_parameter_edit eachTagged.context eachTagged.callback "done").
  reflexivity.
Defined.

Lemma C4_witness :
  exists d s,
    hookBlock.run = [d] /\
    Report.node d = hookBlock.done /\
    range (Report.node d) = (21, 25) /\
    Report.suggest d = [s] /\
    Suggest.messageId s = "suggestWrappingInPromise" /\
    Suggest.data s = [("callback", "done")] /\
    Suggest.run_fix s = fix_ hookBlock.context hookBlock.callback "done".
Proof.
  apply (@C4_sync_identifier_reported_once
           (named "beforeEach") (parsedAs "beforeEach" hook)
           hookBlock.context hookBlock.node hookBlock.callback "done" (21, 25)).
  - unfold matching. repeat split; reflexivity.
  - reflexivity.
  - reflexivity.
Defined.

Lemma C6_witness :
  (type destructured.pattern <> AST_NODE_TYPES.Identifier ->
     CallExpression (named "beforeEach") (parsedAs "beforeEach" hook)
       destructured.context destructured.node =
       [ {| Report.node := destructured.pattern;
            Report.messageId := "noDoneCallback";
            Report.suggest := [] |} ]) /\
  (type destructured.pattern = AST_NODE_TYPES.Identifier ->
   async destructured.callback = true ->
     CallExpression (named "beforeEach") (parsedAs "beforeEach" hook)
       destructured.context destructured.node =
       [ {| Report.node := destructured.pattern;
            Report.messageId := "useAwaitInsteadOfCallback";
            Report.suggest := [] |} ]).
Proof.
  apply (@C6_diagnostic_kind_order
           (named "beforeEach") (parsedAs "beforeEach" hook)
           destructured.context destructured.node destructured.callback
           destructured.pattern).
  - unfold matching. repeat split; reflexivity.
  - reflexivity.
Defined.

(** The asynchronous sample: the second branch of the order. *)
Example asyncHook_run :
  CallExpression (named "beforeEach") (parsedAs "beforeEach" hook)
    asyncHook.context asyncHook.node =
  [ {| Report.node := asyncHook.done;
       Report.messageId := "useAwaitInsteadOfCallback";
       Report.suggest := [] |} ].
Proof. vm_compute. reflexivity. Qed.

Lemma C7_witness :
  CallExpression (named "test.each") (parsedAs "test" test)
    eachDirect.context eachDirect.node = [].
Proof.
  apply (@C7_direct_each_not_reported
           (named "test.each") (parsedAs "test" test)
           eachDirect.context eachDirect.node "test").
  - reflexivity.
  - discriminate.
Defined.

Lemma C8_witness :
  (getFirstToken (getSourceCode (sample hookBlock.src [])) (BlockStatement (27, 38)) = None \/
   getLastToken (getSourceCode (sample hookBlock.src [])) (BlockStatement (27, 38)) = None \/
   getTokenBefore (getSourceCode (sample hookBlock.src [])) hookBlock.done = None \/
   getTokenAfter (getSourceCode (sample hookBlock.src []))
     (last [hookBlock.done] hookBlock.done) = None ->
   fix_ (sample hookBlock.src []) hookBlock.callback "done" =
     Thrown (unexpected_null (sample hookBlock.src []))) /\
  (forall plan,
     fix_ (sample hookBlock.src []) hookBlock.callback "done" = Returned plan ->
     List.length plan = 3 /\
     getFirstToken (getSourceCode (sample hookBlock.src [])) (BlockStatement (27, 38)) <> None /\
     getLastToken (getSourceCode (sample hookBlock.src [])) (BlockStatement (27, 38)) <> None /\
     getTokenBefore (getSourceCode (sample hookBlock.src [])) hookBlock.done <> None /\
     getTokenAfter (getSourceCode (sample hookBlock.src []))
       (last [hookBlock.done] hookBlock.done) <> None).
Proof.
  apply (@C8_missing_anchor_throws (sample hookBlock.src []) hookBlock.callback "done"
           (BlockStatement (27, 38)) hookBlock.done []).
  - reflexivity.
  - reflexivity.
Defined.

(** A source whose tokens were lost: the fix throws. *)
Example fix_throws_without_tokens :
  fix_ (sample hookBlock.src []) hookBlock.callback "done" =
  Thrown "Unexpected null when attempting to fix sample.js - please file a github issue at https://github.com/jest-community/eslint-plugin-jest".
Proof. reflexivity. Qed.

(** The rewritten hook sample: its callback has no parameter, and nothing is
    reported. *)
Example hookRewritten_run :
  CallExpression (named "beforeEach") (parsedAs "beforeEach" hook)
    hookRewritten.context hookRewritten.node = [].
Proof.
  apply (@visit_ignores_parameterless_callback
           (named "beforeEach") (parsedAs "beforeEach" hook)
           hookRewritten.context hookRewritten.node hookRewritten.callback);
    reflexivity.
Qed.


(** ** Further facts about strings and token lists *)

Lemma substring_split (s : string) (n : nat) :
  n <= String.length s ->
  s = (substring 0 n s ++ substring n (String.length s - n) s)%string.
Proof.
  revert n. induction s as [|c s IH]; intros n Hn.
  - destruct n; reflexivity.
  - destruct n as [|n].
    + simpl. now rewrite substring_whole.
    + simpl in *. f_equal. apply IH. lia.
Qed.

(** A string that ends with [suffix] is some prefix followed by [suffix]. *)
Lemma endsWith_inv (s suffix : string) :
  endsWith s suffix = true -> exists prefix, s = (prefix ++ suffix)%string.
Proof.
  unfold endsWith. intros H. apply andb_prop in H. destruct H as [Hlen Heq].
  apply Nat.leb_le in Hlen. apply String.eqb_eq in Heq.
  exists (substring 0 (String.length s - String.length suffix) s).
  assert (Hs := @substring_split s (String.length s - String.length suffix)).
  replace (String.length s - (String.length s - String.length suffix))
    with (String.length suffix) in Hs by lia.
  rewrite Heq in Hs. apply Hs. lia.
Qed.

Lemma count_char_append (c : ascii) (a b : string) :
  count_char c (a ++ b) = count_char c a + count_char c b.
Proof. induction a as [|x a IH]; simpl; [reflexivity | rewrite IH; lia]. Qed.

Lemma tokensInOrder_tail (t : Token) (l : list Token) :
  tokensInOrder (t :: l) = true -> tokensInOrder l = true.
Proof.
  simpl. intros H. apply andb_prop in H. destruct H as [_ H]. exact H.
Qed.

Lemma tokensInOrder_well_formed (l : list Token) :
  tokensInOrder l = true ->
  Forall (fun u => fst (range u) <= snd (range u)) l.
Proof.
  induction l as [|t l IH]; intros H; constructor.
  - simpl in H. apply andb_prop in H. destruct H as [H _].
    apply andb_prop in H. destruct H as [H _]. now apply Nat.leb_le.
  - apply IH. exact (tokensInOrder_tail _ _ H).
Qed.

(** In an ordered token list the head ends before every later token starts. *)
Lemma tokensInOrder_head_before (l : list Token) :
  forall t, tokensInOrder (t :: l) = true ->
  forall u, In u l -> snd (range t) <= fst (range u).
Proof.
  induction l as [|v l IH]; intros t H u Hin; [destruct Hin|].
  pose proof (tokensInOrder_tail _ _ H) as Htail.
  simpl in H. apply andb_prop in H. destruct H as [H _].
  apply andb_prop in H. destruct H as [_ Htv]. apply Nat.leb_le in Htv.
  destruct Hin as [<- | Hin]; [exact Htv|].
  pose proof (IH v Htail u Hin) as Hvu.
  pose proof (tokensInOrder_well_formed _ Htail) as Hwf.
  apply Forall_inv in Hwf. lia.
Qed.

(** The first token that satisfies [p] ends before any other token that
    satisfies [p] starts. *)
Lemma first_found_before (p : Token -> bool) (l : list Token) (t u : Token) :
  tokensInOrder l = true ->
  find p l = Some t ->
  In u l -> p u = true ->
  u = t \/ snd (range t) <= fst (range u).
Proof.
  induction l as [|v l IH]; intros Hord Hfind Hin Hpu; [destruct Hin|].
  simpl in Hfind. destruct (p v) eqn:Hpv.
  - injection Hfind as <-. destruct Hin as [-> | Hin]; [now left|].
    right. exact (tokensInOrder_head_before _ _ Hord u Hin).
  - destruct Hin as [-> | Hin]; [congruence|].
    apply IH; try assumption. exact (tokensInOrder_tail _ _ Hord).
Qed.





(** ** Further properties of the fix *)

(** On a function literal with a first parameter the fix has two outcomes:
    a plan of three edits, or the error about a missing token. *)
Lemma fix_outcome (context : RuleContext) (callback : Node) (name : string)
    (b firstParam : Node) (rest : list Node) :
  body callback = Some b ->
  params callback = firstParam :: rest ->
  (exists e0 e1 e2, fix_ context callback name = Returned [e0; e1; e2]) \/
  fix_ context callback name = Thrown (unexpected_null context).
Proof.
  intros Hb Hps. unfold fix_. rewrite Hb, Hps. cbv zeta.
  destruct (getFirstToken (getSourceCode context) b); [|now right].
  destruct (getLastToken (getSourceCode context) b); [|now right].
  destruct (getTokenBefore (getSourceCode context) firstParam); [|now right].
  destruct (skipComma (getSourceCode context) _); [|now right].
  left. destruct (AST_NODE_TYPES.eqb (type b) AST_NODE_TYPES.BlockStatement); eauto.
Qed.

(** X9: a comma after the last parameter with no token behind it makes the
    fix throw, although a token after the last parameter was found: the null
    test looks at the token after the comma. *)
Theorem fix_throws_on_dangling_comma (context : RuleContext) (callback : Node)
    (name : string) (b firstParam : Node) (rest : list Node) (comma : Token) :
  body callback = Some b ->
  params callback = firstParam :: rest ->
  getTokenAfter (getSourceCode context) (last (firstParam :: rest) firstParam) = Some comma ->
  value comma = "," ->
  getTokenAfter (getSourceCode context) comma = None ->
  fix_ context callback name = Thrown (unexpected_null context).
Proof.
  intros Hb Hps Hcomma Ec Hnone. unfold fix_. rewrite Hb, Hps. cbv zeta.
  rewrite Hcomma. unfold skipComma. rewrite Ec. simpl String.eqb. cbv iota.
  rewrite Hnone.
  destruct (getFirstToken (getSourceCode context) b);
    destruct (getLastToken (getSourceCode context) b);
    destruct (getTokenBefore (getSourceCode context) firstParam); reflexivity.
Qed.

Lemma fix_throws_on_dangling_comma_witness :
  fix_ danglingComma.context trailingComma.callback "done" =
  Thrown (unexpected_null danglingComma.context).
Proof.
  apply (@fix_throws_on_dangling_comma
           danglingComma.context trailingComma.callback "done"
           (BlockStatement (21, 23)) trailingComma.done []
           (tok trailingComma.src (15, 16)));
    reflexivity.
Defined.



(** X12: the texts a returned plan puts into the source are balanced: they
    hold as many opening as closing parentheses and as many opening as
    closing braces, for a callback name that is balanced itself (an
    identifier holds none). *)
Theorem fix_inserted_text_balanced (context : RuleContext) (callback : Node)
    (name : string) (plan : list Fix) :
  count_char "(" name = count_char ")" name ->
  count_char "{" name = count_char "}" name ->
  fix_ context callback name = Returned plan ->
  count_inserted "(" plan = count_inserted ")" plan /\
  count_inserted "{" plan = count_inserted "}" plan.
Proof.
  intros Hparen Hbrace Hfix.
  destruct (fix_returned_inv _ _ _ Hfix)
    as (b & fp & rest & fb & lb & tb & ta & _ & _ & _ & _ & _ & _ & ->).
  unfold count_inserted.
  destruct (String.eqb (value tb) "(" && String.eqb (value ta) ")");
    destruct (AST_NODE_TYPES.eqb (type b) AST_NODE_TYPES.BlockStatement);
    simpl; rewrite !count_char_append; simpl; lia.
Qed.

Lemma fix_inserted_text_balanced_witness :
  count_inserted "("
    [ {| fix_range := (10, 14); fix_text := "()" |};
      {| fix_range := (18, 18); fix_text := "new Promise(done => " |};
      {| fix_range := (24, 24); fix_text := ")" |} ] =
  count_inserted ")"
    [ {| fix_range := (10, 14); fix_text := "()" |};
      {| fix_range := (18, 18); fix_text := "new Promise(done => " |};
      {| fix_range := (24, 24); fix_text := ")" |} ] /\
  count_inserted "{"
    [ {| fix_range := (10, 14); fix_text := "()" |};
      {| fix_range := (18, 18); fix_text := "new Promise(done => " |};
      {| fix_range := (24, 24); fix_text := ")" |} ] =
  count_inserted "}"
    [ {| fix_range := (10, 14); fix_text := "()" |};
      {| fix_range := (18, 18); fix_text := "new Promise(done => " |};
      {| fix_range := (24, 24); fix_text := ")" |} ].
Proof.
  apply (@fix_inserted_text_balanced testArrowExpr.context testArrowExpr.callback "done");
    reflexivity.
Defined.

(** ** Further properties of the visitor *)

Lemma nth_error_last_split {A : Type} (l : list A) :
  forall (n : nat) (x : A),
    nth_error l n = Some x -> List.length l = S n -> exists init, l = init ++ [x].
Proof.
  induction l as [|a l IH]; intros n x Hnth Hlen; [discriminate Hlen|].
  destruct n as [|n]; simpl in *.
  - injection Hnth as <-. destruct l; [|discriminate Hlen]. now exists [].
  - injection Hlen as Hlen. destruct (IH n x Hnth Hlen) as [init ->].
    now exists (a :: init).
Qed.

Section RuleExtras.

Variable getNodeName : Node -> option string.
Variable parseJestFnCall : TSESTree.CallExpression -> RuleContext -> option ParsedJestFnCall.

Local Abbreviation visit := (CallExpression getNodeName parseJestFnCall).
Local Abbreviation located := (located getNodeName parseJestFnCall).
Local Abbreviation matching := (matching getNodeName parseJestFnCall).
Local Abbreviation isJestEach_of := (isJestEach_of getNodeName).
Local Abbreviation callbackSlot := (callbackSlot getNodeName).

(** The shape of a report: the call is a matching call, the report is the
    only one, it sits on the callback-slot parameter, and it is one of the
    three descriptors of the visitor. *)
Lemma visit_report_inv (context : RuleContext) (node : TSESTree.CallExpression)
    (d : Report.t) :
  In d (visit context node) ->
  exists callback argument,
    matching context node callback /\
    callbackSlot node callback = Some argument /\
    visit context node = [d] /\
    Report.node d = argument /\
    ((exists name l,
        argument = Identifier name l /\
        Report.messageId d = "noDoneCallback" /\
        Report.suggest d =
          [ {| Suggest.messageId := "suggestWrappingInPromise";
               Suggest.data := [("callback", name)];
               Suggest.run_fix := fix_ context callback name |} ]) \/
     (Report.messageId d = "useAwaitInsteadOfCallback" /\ Report.suggest d = []) \/
     (Report.messageId d = "noDoneCallback" /\ Report.suggest d = [])).
Proof.
  intros Hin.
  assert (Hne : visit context node <> []) by (intros E; rewrite E in Hin; destruct Hin).
  apply visit_reports_iff_matching in Hne. destruct Hne as [callback Hm].
  destruct (matching_slot Hm) as [argument Hslot].
  exists callback, argument.
  rewrite (visit_matching Hm Hslot) in *.
  split; [exact Hm|]. split; [exact Hslot|].
  destruct argument; try destruct (async callback);
    destruct Hin as [<- | []]; simpl; repeat split; eauto 8.
Qed.

(** X1: the visitor hands over at most one report for a call, and a report
    carries at most one suggestion. *)
Theorem visit_at_most_one_report (context : RuleContext) (node : TSESTree.CallExpression) :
  List.length (visit context node) <= 1 /\
  Forall (fun d => List.length (Report.suggest d) <= 1) (visit context node).
Proof.
  destruct (visit context node) as [|d rest] eqn:Hrun.
  - split; [simpl; lia | constructor].
  - assert (Hin : In d (visit context node)) by (rewrite Hrun; now left).
    destruct (visit_report_inv _ _ _ Hin)
      as (callback & argument & _ & _ & Hone & _ & Hkind).
    rewrite Hrun in Hone. injection Hone as ->.
    split; [simpl; lia|]. constructor; [|constructor].
    destruct Hkind as [(name & l & _ & _ & ->) | [[_ ->] | [_ ->]]]; simpl; lia.
Qed.

(** X2: every message id the visitor reports, and the message id of every
    suggestion, is declared in the rule's metadata; the data of a suggestion
    holds the one key [callback] that its message interpolates; and
    suggestions come from a rule whose metadata allows them. *)
Theorem visit_message_ids_declared (context : RuleContext)
    (node : TSESTree.CallExpression) (d : Report.t) :
  In d (visit context node) ->
  declared (Report.messageId d) /\
  (forall s, In s (Report.suggest d) ->
     declared (Suggest.messageId s) /\
     map fst (Suggest.data s) = ["callback"] /\
     Meta.hasSuggestions meta = true).
Proof.
  intros Hin.
  destruct (visit_report_inv _ _ _ Hin)
    as (callback & argument & _ & _ & _ & _ & Hkind).
  unfold declared.
  destruct Hkind as [(name & l & _ & -> & ->) | [[-> ->] | [-> ->]]]; simpl.
  - split; [tauto|]. intros s [<- | []]. simpl. repeat split. tauto.
  - split; [tauto|]. intros s [].
  - split; [tauto|]. intros s [].
Qed.

Lemma located_in_arguments (context : RuleContext) (node : TSESTree.CallExpression)
    (callback : Node) :
  located context node = Some callback -> In callback (arguments node).
Proof.
  unfold_rule. unfold findCallbackArg.
  destruct (isJestEach_of node && _); [discriminate|].
  destruct (isJestEach_of node); [apply nth_error_In|].
  destruct (jestFnCall_type_is _ hook && _); [apply nth_error_In|].
  destruct (jestFnCall_type_is _ test && _); [apply nth_error_In | discriminate].
Qed.

(** X3: the node a report is anchored at is the last parameter of a function
    literal that is one of the call's arguments. *)
Theorem visit_anchor_is_last_parameter (context : RuleContext)
    (node : TSESTree.CallExpression) (d : Report.t) :
  In d (visit context node) ->
  exists callback init,
    In callback (arguments node) /\
    isFunction callback = true /\
    params callback = init ++ [Report.node d].
Proof.
  intros Hin.
  destruct (visit_report_inv _ _ _ Hin)
    as (callback & argument & (Hloc & Hfun & Hlen) & Hslot & _ & -> & _).
  destruct (@nth_error_last_split _ _ _ _ Hslot Hlen) as [init Hinit].
  exists callback, init.
  split; [exact (located_in_arguments _ _ Hloc)|]. split; assumption.
Qed.

(** X4: a call whose name does not end in [.each] and that is not parsed as
    a hook or a test (a describe block, an expectation, a call that is no
    jest call at all) is not reported, whatever its arguments are. *)
Theorem visit_ignores_other_calls (context : RuleContext)
    (node : TSESTree.CallExpression) :
  isJestEach_of node = false ->
  (forall c, parseJestFnCall node context = Some c ->
             fn_type c <> hook /\ fn_type c <> test) ->
  visit context node = [].
Proof.
  intros Heach Hother. apply visit_not_located.
  unfold_rule. unfold findCallbackArg, jestFnCall_type_is. rewrite Heach. simpl.
  destruct (parseJestFnCall node context) as [c|]; [|reflexivity].
  destruct (Hother c eq_refl) as [Hh Ht].
  destruct (fn_type c); try reflexivity; [now elim Hh | now elim Ht].
Qed.

(** X5: on a call whose name ends in [.each] the visitor does not consult
    [parseJestFnCall]: its reports are the same under any classification of
    the call. *)
Theorem visit_each_ignores_parseJestFnCall
    (parseOther : TSESTree.CallExpression -> RuleContext -> option ParsedJestFnCall)
    (context : RuleContext) (node : TSESTree.CallExpression) :
  isJestEach_of node = true ->
  visit context node = CallExpression getNodeName parseOther context node.
Proof.
  intros Heach. unfold CallExpression, findCallbackArg. rewrite Heach. reflexivity.
Qed.

Lemma findCallbackArg_trailing (context : RuleContext) (node : TSESTree.CallExpression)
    (extra : list Node) (each : bool) :
  parseJestFnCall (withTrailingArguments node extra) context = parseJestFnCall node context ->
  findCallbackArg parseJestFnCall node each context <> None ->
  findCallbackArg parseJestFnCall (withTrailingArguments node extra) each context =
  findCallbackArg parseJestFnCall node each context.
Proof.
  intros Hparse. unfold findCallbackArg. rewrite Hparse. simpl arguments.
  rewrite length_app.
  destruct each.
  - intros Hsome. apply nth_error_app1. now apply nth_error_Some.
  - destruct (jestFnCall_type_is (parseJestFnCall node context) hook).
    + destruct (1 <=? List.length (arguments node)) eqn:H1.
      * apply Nat.leb_le in H1. intros _.
        replace (1 <=? List.length (arguments node) + List.length extra) with true
          by (symmetry; apply Nat.leb_le; lia).
        cbn [andb]. apply nth_error_app1. lia.
      * cbn [andb].
        destruct (jestFnCall_type_is (parseJestFnCall node context) test).
        -- destruct (2 <=? List.length (arguments node)) eqn:H2.
           ++ apply Nat.leb_le in H2. apply Nat.leb_gt in H1. lia.
           ++ intros Hsome. now elim Hsome.
        -- intros Hsome. now elim Hsome.
    + cbn [andb].
      destruct (jestFnCall_type_is (parseJestFnCall node context) test);
        [|intros Hsome; now elim Hsome].
      destruct (2 <=? List.length (arguments node)) eqn:H2;
        [|intros Hsome; now elim Hsome].
      apply Nat.leb_le in H2. intros _.
      replace (2 <=? List.length (arguments node) + List.length extra) with true
        by (symmetry; apply Nat.leb_le; lia).
      cbn [andb]. apply nth_error_app1. lia.
Qed.

(** X6: arguments that follow the nominated callback (a timeout, say) do not
    change what the visitor reports, as long as they do not change how the
    call is parsed. *)
Theorem visit_ignores_trailing_arguments (context : RuleContext)
    (node : TSESTree.CallExpression) (extra : list Node) :
  parseJestFnCall (withTrailingArguments node extra) context = parseJestFnCall node context ->
  located context node <> None ->
  visit context (withTrailingArguments node extra) = visit context node.
Proof.
  intros Hparse Hloc. unfold_rule. unfold_each. simpl callee.
  destruct (match getNodeName (callee node) with
            | Some name => endsWith name ".each"
            | None => false
            end &&
            negb (AST_NODE_TYPES.eqb (type (callee node))
                    AST_NODE_TYPES.TaggedTemplateExpression)) eqn:Hgate;
    [reflexivity|].
  rewrite (findCallbackArg_trailing _ Hparse Hloc). reflexivity.
Qed.

(** X7: the visitor takes a call for a parameterized test exactly when the
    resolved name of its callee is some prefix followed by [.each]; a callee
    without a resolved name never counts. *)
Theorem isJestEach_iff_each_suffix (node : TSESTree.CallExpression) :
  isJestEach_of node = true <->
  exists prefix, getNodeName (callee node) = Some (prefix ++ ".each")%string.
Proof.
  unfold_each. split.
  - destruct (getNodeName (callee node)) as [name|]; [|discriminate].
    intros H. destruct (endsWith_inv _ _ H) as [prefix ->]. now exists prefix.
  - intros [prefix ->]. apply endsWith_append.
Qed.

(** X8: the fix of a suggestion the visitor hands over has two outcomes
    only: a plan of exactly three edits, or the error about a missing token.
    It never fails for want of a body or of a first parameter. *)
Theorem visit_fix_outcome (context : RuleContext) (node : TSESTree.CallExpression)
    (d : Report.t) (s : Suggest.t) :
  In d (visit context node) ->
  In s (Report.suggest d) ->
  (exists e0 e1 e2, Suggest.run_fix s = Returned [e0; e1; e2]) \/
  Suggest.run_fix s = Thrown (unexpected_null context).
Proof.
  intros Hin Hs.
  destruct (visit_report_inv _ _ _ Hin)
    as (callback & argument & (_ & Hfun & Hlen) & _ & _ & _ & Hkind).
  destruct (@function_has_body_and_first_param callback _ Hfun Hlen)
    as (b & firstParam & rest & Hb & Hps).
  destruct Hkind as [(name & l & _ & _ & Hsug) | [[_ Hsug] | [_ Hsug]]];
    rewrite Hsug in Hs; try (now destruct Hs).
  destruct Hs as [<- | []]. simpl. exact (fix_outcome _ _ _ Hb Hps).
Qed.


End RuleExtras.

(** ** The further properties on the sample sources *)

Lemma visit_message_ids_declared_witness :
  declared (Report.messageId hookBlock_report) /\
  (forall s, In s (Report.suggest hookBlock_report) ->
     declared (Suggest.messageId s) /\
     map fst (Suggest.data s) = ["callback"] /\
     Meta.hasSuggestions meta = true).
Proof.
  apply (@visit_message_ids_declared
           (named "beforeEach") (parsedAs "beforeEach" hook)
           hookBlock.context hookBlock.node hookBlock_report).
  left. reflexivity.
Defined.

Lemma visit_anchor_is_last_parameter_witness :
  exists callback init,
    In callback (arguments hookBlock.node) /\
    isFunction callback = true /\
    params callback = init ++ [Report.node hookBlock_report].
Proof.
  apply (@visit_anchor_is_last_parameter
           (named "beforeEach") (parsedAs "beforeEach" hook)
           hookBlock.context hookBlock.node hookBlock_report).
  left. reflexivity.
Defined.

Lemma visit_ignores_other_calls_witness :
  CallExpression (named "foo") notJest.notParsed notJest.context notJest.node = [].
Proof.
  apply (@visit_ignores_other_calls
           (named "foo") notJest.notParsed notJest.context notJest.node).
  - reflexivity.
  - intros c Hc. discriminate Hc.
Defined.

Lemma visit_each_ignores_parseJestFnCall_witness :
  CallExpression (named "test.each") (parsedAs "test" test)
    eachTagged.context eachTagged.node =
  CallExpression (named "test.each") notJest.notParsed
    eachTagged.context eachTagged.node.
Proof.
  apply (@visit_each_ignores_parseJestFnCall
           (named "test.each") (parsedAs "test" test) notJest.notParsed
           eachTagged.context eachTagged.node).
  reflexivity.
Defined.

Lemma visit_ignores_trailing_arguments_witness :
  CallExpression (named "beforeEach") (parsedAs "beforeEach" hook) hookTimeout.context
    (withTrailingArguments hookTimeout.callOnly [hookTimeout.timeout]) =
  CallExpression (named "beforeEach") (parsedAs "beforeEach" hook) hookTimeout.context
    hookTimeout.callOnly.
Proof.
  apply (@visit_ignores_trailing_arguments
           (named "beforeEach") (parsedAs "beforeEach" hook)
           hookTimeout.context hookTimeout.callOnly [hookTimeout.timeout]).
  - reflexivity.
  - discriminate.
Defined.

Lemma visit_fix_outcome_witness :
  (exists e0 e1 e2, Suggest.run_fix hookBlock_suggestion = Returned [e0; e1; e2]) \/
  Suggest.run_fix hookBlock_suggestion = Thrown (unexpected_null hookBlock.context).
Proof.
  apply (@visit_fix_outcome
           (named "beforeEach") (parsedAs "beforeEach" hook)
           hookBlock.context hookBlock.node hookBlock_report hookBlock_suggestion).
  - left. reflexivity.
  - left. reflexivity.
Defined.


(** The hook sample with a timeout after its callback is reported as the
    sample without it. *)
Example hookTimeout_run :
  CallExpression (named "beforeEach") (parsedAs "beforeEach" hook) hookTimeout.context
    (withTrailingArguments hookTimeout.callOnly [hookTimeout.timeout]) =
  [ {| Report.node := hookBlock.done;
       Report.messageId := "noDoneCallback";
       Report.suggest :=
         [ {| Suggest.messageId := "suggestWrappingInPromise";
              Suggest.data := [("callback", "done")];
              Suggest.run_fix :=
                Returned [ {| fix_range := (21, 25); fix_text := "" |};
                           {| fix_range := (28, 28); fix_text := "return new Promise(done => {" |};
                           {| fix_range := (38, 38); fix_text := ")}" |} ] |} ] |} ].
Proof. vm_compute. reflexivity. Qed.

(** A token list without the body's tokens: the walks over the body find no
    mapped location and fall back to the first and the last token of the
    list, so the fix returns a plan whose insertions lie outside the body and
    before the parameter edit. *)
Example tokensWithoutBody_anchors :
  getFirstToken (getSourceCode tokensWithoutBody.context) (BlockStatement (21, 23)) =
    Some (tok trailingComma.src (0, 4)) /\
  getLastToken (getSourceCode tokensWithoutBody.context) (BlockStatement (21, 23)) =
    Some (tok trailingComma.src (16, 17)).
Proof. split; vm_compute; reflexivity. Qed.

Example tokensWithoutBody_plan :
  fix_ tokensWithoutBody.context trailingComma.callback "done" =
  Returned [ {| fix_range := (11, 16); fix_text := "" |};
             {| fix_range := (4, 4); fix_text := "return new Promise(done => {" |};
             {| fix_range := (17, 17); fix_text := ")}" |} ].
Proof. vm_compute. reflexivity. Qed.

Example tokensWithoutBody_plan_not_in_order :
  ~ editsInOrder
      [ {| fix_range := (11, 16); fix_text := "" |};
        {| fix_range := (4, 4); fix_text := "return new Promise(done => {" |};
        {| fix_range := (17, 17); fix_text := ")}" |} ].
Proof. simpl. intros (_ & H & _). lia. Qed.
